(** * Conditional wildcard matchers ([matchers.py]): embedding and properties

    The Python module defines [AnyIf], a "chameleon" object whose [__eq__]
    accepts any value satisfying a validator and records what it was compared
    with, and seven subclasses that only differ in the acceptance rule.

    Layout of this file:
    - the fragment of Python data the matchers are compared with ([value]),
      the exceptions that can escape ([exn]) and the error monad ([result]);
    - the builtins the source calls ([isinstance], [==], [<], [sorted],
      [in], [str.startswith], [uuid.UUID(...)]);
    - the classes of [matchers.py], one Module per class;
    - [dict.__eq__] as used by [test_matchers.py];
    - the properties. *)

From Stdlib Require Import ZArith NArith String Ascii HexString DecimalString List Bool Lia
  Permutation.
From stdpp Require Import base gmap strings list sorting.
Import ListNotations.

Local Open Scope Z_scope.

(** ** Python data *)

(** The values a matcher is compared with.  Strings are sequences of code
    points below 256.  [VObject id] is an instance of [object] (or of any
    class that inherits [object.__eq__]): it is equal to itself only.
    Floating point numbers and dictionaries are left out of the fragment. *)
#[local] Set Warnings "-register-all".
Inductive value : Type :=
| VNone
| VBool (b : bool)
| VInt (n : Z)
| VStr (s : string)
| VUUID (n : Z)
| VTuple (l : list value)
| VList (l : list value)
| VObject (id : nat).

(** The exceptions that the modelled builtins raise.  [ReError] is
    [re.error]; [SystemError] is what a reference to an object that is not
    in the heap gives, which no program can construct. *)
Inductive exn : Type :=
| TypeError
| ValueError
| AttributeError
| ReError
| SystemError.

Inductive result (A : Type) : Type :=
| Ok (a : A)
| Raise (e : exn).
Arguments Ok {A} a.
Arguments Raise {A} e.

Definition rbind {A B : Type} (r : result A) (k : A -> result B) : result B :=
  match r with
  | Ok a => k a
  | Raise e => Raise e
  end.

Notation "'let*' x ':=' r 'in' k" := (rbind r (fun x => k))
  (at level 10, x pattern, r at level 100, k at level 200).

Definition raises {A : Type} (r : result A) : bool :=
  match r with
  | Ok _ => false
  | Raise _ => true
  end.

(** Induction over [value] that reaches into the element lists. *)
Section value_induction.
Variable P : value -> Prop.
Hypothesis HNone : P VNone.
Hypothesis HBool : forall b, P (VBool b).
Hypothesis HInt : forall n, P (VInt n).
Hypothesis HStr : forall s, P (VStr s).
Hypothesis HUUID : forall n, P (VUUID n).
Hypothesis HTuple : forall l, Forall P l -> P (VTuple l).
Hypothesis HList : forall l, Forall P l -> P (VList l).
Hypothesis HObject : forall id, P (VObject id).

Fixpoint value_ind_deep (v : value) : P v :=
  match v with
  | VNone => HNone
  | VBool b => HBool b
  | VInt n => HInt n
  | VStr s => HStr s
  | VUUID n => HUUID n
  | VTuple l =>
      HTuple l ((fix go (l : list value) : Forall P l :=
                   match l with
                   | [] => @List.Forall_nil _ P
                   | x :: r => @List.Forall_cons _ P x r (value_ind_deep x) (go r)
                   end) l)
  | VList l =>
      HList l ((fix go (l : list value) : Forall P l :=
                  match l with
                  | [] => @List.Forall_nil _ P
                  | x :: r => @List.Forall_cons _ P x r (value_ind_deep x) (go r)
                  end) l)
  | VObject id => HObject id
  end.
End value_induction.

(** ** Builtins *)

(** [x is y] when [y] is an instance of [object]: identity of the object. *)
Definition is_ (x y : value) : bool :=
  match x, y with
  | VObject i, VObject j => Nat.eqb i j
  | _, _ => false
  end.

(** [isinstance(v, int)]: [bool] is a subclass of [int]. *)
Definition isinstance_int (v : value) : bool :=
  match v with
  | VInt _ | VBool _ => true
  | _ => false
  end.

Definition isinstance_str (v : value) : bool :=
  match v with
  | VStr _ => true
  | _ => false
  end.

Definition isinstance_UUID (v : value) : bool :=
  match v with
  | VUUID _ => true
  | _ => false
  end.

(** The integer a [bool] or [int] stands for in comparisons. *)
Definition as_int (v : value) : option Z :=
  match v with
  | VInt n => Some n
  | VBool b => Some (if b then 1 else 0)
  | _ => None
  end.

(** [x == y].  No comparison of the fragment raises. *)
Fixpoint py_eq (x y : value) {struct x} : bool :=
  let fix seq_eq (l1 l2 : list value) {struct l1} : bool :=
    match l1, l2 with
    | [], [] => true
    | a :: r1, b :: r2 => py_eq a b && seq_eq r1 r2
    | _, _ => false
    end in
  match x, y with
  | VNone, VNone => true
  | VBool a, VBool b => Bool.eqb a b
  | VBool a, VInt n => Z.eqb (if a then 1 else 0) n
  | VInt n, VBool b => Z.eqb n (if b then 1 else 0)
  | VInt n, VInt m => Z.eqb n m
  | VStr s, VStr t => String.eqb s t
  | VUUID n, VUUID m => Z.eqb n m
  | VTuple l1, VTuple l2 => seq_eq l1 l2
  | VList l1, VList l2 => seq_eq l1 l2
  | VObject i, VObject j => Nat.eqb i j
  | _, _ => false
  end.

Definition seq_eq : list value -> list value -> bool :=
  fix seq_eq (l1 l2 : list value) {struct l1} : bool :=
    match l1, l2 with
    | [], [] => true
    | a :: r1, b :: r2 => py_eq a b && seq_eq r1 r2
    | _, _ => false
    end.

(** [x < y].  Numbers compare with numbers, strings with strings, UUIDs with
    UUIDs, and sequences of one kind lexicographically: the first position
    where the elements are not [==] decides.  Everything else is
    [TypeError: '<' not supported]. *)
Fixpoint py_lt (x y : value) {struct x} : result bool :=
  let fix seq_lt (l1 l2 : list value) {struct l1} : result bool :=
    match l1, l2 with
    | [], [] => Ok false
    | [], _ :: _ => Ok true
    | _ :: _, [] => Ok false
    | a :: r1, b :: r2 => if py_eq a b then seq_lt r1 r2 else py_lt a b
    end in
  match x, y with
  | VBool a, VBool b => Ok (Z.ltb (if a then 1 else 0) (if b then 1 else 0))
  | VBool a, VInt n => Ok (Z.ltb (if a then 1 else 0) n)
  | VInt n, VBool b => Ok (Z.ltb n (if b then 1 else 0))
  | VInt n, VInt m => Ok (Z.ltb n m)
  | VStr s, VStr t => Ok (String.ltb s t)
  | VUUID n, VUUID m => Ok (Z.ltb n m)
  | VTuple l1, VTuple l2 => seq_lt l1 l2
  | VList l1, VList l2 => seq_lt l1 l2
  | _, _ => Raise TypeError
  end.

(** [iter(v)] run to the end: the elements of a list or tuple, the
    one-character strings of a string. *)
Definition iterate (v : value) : result (list value) :=
  match v with
  | VList l | VTuple l => Ok l
  | VStr s => Ok (map (fun c => VStr (String c EmptyString)) (list_ascii_of_string s))
  | _ => Raise TypeError
  end.

(** [sorted(v)].  The sort is stable and uses [<] only; an element goes in
    front of the first element of the sorted rest that is not smaller.
    A failing comparison aborts the sort. *)
Fixpoint insert_sorted (x : value) (l : list value) : result (list value) :=
  match l with
  | [] => Ok [x]
  | y :: r =>
      let* b := py_lt y x in
      if b then (let* r' := insert_sorted x r in Ok (y :: r'))
      else Ok (x :: y :: r)
  end.

Fixpoint sort_values (l : list value) : result (list value) :=
  match l with
  | [] => Ok []
  | x :: r => let* r' := sort_values r in insert_sorted x r'
  end.

Definition sorted (v : value) : result (list value) :=
  let* l := iterate v in sort_values l.

(** [v in items] for a tuple [items]. *)
Definition py_in (v : value) (items : list value) : bool :=
  existsb (fun x => py_eq x v) items.

(** [s.startswith(p)]. *)
Definition startswith (s p : string) : bool := String.prefix p s.

(** [s.replace(old, '')] for a non-empty [old]: occurrences are removed
    from left to right, without overlap.  [skip] counts the characters of an
    occurrence that are still to be dropped. *)
Fixpoint str_remove_from (old : string) (skip : nat) (s : string) : string :=
  match s with
  | EmptyString => EmptyString
  | String c r =>
      match skip with
      | S k => str_remove_from old k r
      | O =>
          if String.prefix old s
          then str_remove_from old (Nat.pred (String.length old)) r
          else String c (str_remove_from old O r)
      end
  end.

Definition str_remove (old s : string) : string := str_remove_from old O s.

Fixpoint char_in (c : ascii) (chars : string) : bool :=
  match chars with
  | EmptyString => false
  | String d r => Ascii.eqb c d || char_in c r
  end.

Fixpoint str_lstrip (chars s : string) : string :=
  match s with
  | EmptyString => EmptyString
  | String c r => if char_in c chars then str_lstrip chars r else s
  end.

Definition str_rev (s : string) : string :=
  string_of_list_ascii (rev (list_ascii_of_string s)).

(** [s.strip(chars)]. *)
Definition str_strip (chars s : string) : string :=
  str_rev (str_lstrip chars (str_rev (str_lstrip chars s))).

(** Whether [needle] occurs in [s]. *)
Fixpoint str_contains (needle s : string) : bool :=
  String.prefix needle s ||
  match s with
  | EmptyString => false
  | String _ r => str_contains needle r
  end.

(** Whether the character ["n"] is absent from [s]. *)
Fixpoint no_n (s : string) : bool :=
  match s with
  | EmptyString => true
  | String c r => negb (Ascii.eqb c "n") && no_n r
  end.

(** A compiled regular expression object: its source and its flags. *)
Record Pattern : Type := mkPattern {
  pattern_source : string;
  pattern_flags : Z
}.

(** [re.DOTALL]. *)
Definition DOTALL : Z := 16.

(** The parts of the Python runtime that the module calls and whose
    behaviour is not fixed here:
    - [py_repr v] is [repr(v)];
    - [int16 s] is [int(s, 16)], [None] standing for [ValueError];
    - [re_valid s] says whether [re.compile(s, re.DOTALL)] succeeds;
    - [re_match p s] says whether [p.match(s)] finds a match at the start
      of [s]. *)
Class Runtime : Type := {
  py_repr : value -> string;
  int16 : string -> option Z;
  re_valid : string -> bool;
  re_match : Pattern -> string -> bool
}.

(** [re.compile(pattern, flags)]. *)
Definition re_compile `{Runtime} (pattern : string) (flags : Z) : result Pattern :=
  if re_valid pattern then Ok (mkPattern pattern flags) else Raise ReError.

(** [p.match(v) is not None]: [match] wants a string. *)
Definition pattern_match `{Runtime} (p : Pattern) (v : value) : result bool :=
  match v with
  | VStr s => Ok (re_match p s)
  | _ => Raise TypeError
  end.

(** [uuid.UUID(hex)], returning the 128-bit integer of the new UUID.
    [UUID.__init__] counts the arguments that are [None], then treats [hex]
    as a string: it calls [hex.replace], which only strings have. *)
Definition UUID `{Runtime} (hex : value) : result Z :=
  match hex with
  | VNone => Raise TypeError
  | VStr s =>
      let hex := str_remove "uuid:" (str_remove "urn:" s) in
      let hex := str_remove "-" (str_strip "{}" hex) in
      if negb (Nat.eqb (String.length hex) 32) then Raise ValueError
      else match int16 hex with
           | None => Raise ValueError
           | Some n =>
               if (0 <=? n) && (n <? 2 ^ 128) then Ok n else Raise ValueError
           end
  | _ => Raise AttributeError
  end.

(** [object.__repr__] of an instance of class [cls] of module [matchers]
    living at address [addr]. *)
Definition hex_digits (n : N) : string :=
  match HexString.of_N n with
  | String _ (String _ digits) => digits
  | s => s
  end.

Definition object__repr__ (cls : string) (addr : N) : string :=
  "<matchers." +:+ cls +:+ " object at 0x" +:+ hex_digits addr +:+ ">".

(** ** The module [matchers] *)

(** [_not_compared = object()] and [_not_matched = object()]: two distinct
    instances of [object], created when the module is loaded. *)
Definition _not_compared : value := VObject 0.
Definition _not_matched : value := VObject 1.

(** The classes of the module. *)
Inductive class : Type :=
| CAnyIf
| CAnyInteger
| CAnyString
| CAnyUUID
| CAnyStringMatchingRegex
| CUnordered
| CAnyOf
| CAnyWebURLString.

Definition class_name (k : class) : string :=
  match k with
  | CAnyIf => "AnyIf"
  | CAnyInteger => "AnyInteger"
  | CAnyString => "AnyString"
  | CAnyUUID => "AnyUUID"
  | CAnyStringMatchingRegex => "AnyStringMatchingRegex"
  | CUnordered => "Unordered"
  | CAnyOf => "AnyOf"
  | CAnyWebURLString => "AnyWebURLString"
  end.

(** The objects that closures keep a reference to live in a heap, so that a
    change made through another reference is seen by the closure.  *)
Abbreviation heap := (gmap nat value).

(** A callable stored in [self.validator].  It reads the heap it is called
    in; it returns a [bool] or raises. *)
Definition callable : Type := heap -> value -> result bool.

(** An instance of [AnyIf] or of one of its subclasses: its class and the
    attributes that [__init__] sets.  [other] is only set by
    [AnyStringMatchingRegex]. *)
Record matcher : Type := mkMatcher {
  cls : class;
  description : string;
  validator : option callable;
  actual : value;
  actuals : list value;
  other : option Pattern
}.

Definition set_description (d : string) (self : matcher) : matcher :=
  mkMatcher (cls self) d (validator self) (actual self) (actuals self) (other self).

Definition set_actual (v : value) (self : matcher) : matcher :=
  mkMatcher (cls self) (description self) (validator self) v (actuals self) (other self).

Definition append_actuals (v : value) (self : matcher) : matcher :=
  mkMatcher (cls self) (description self) (validator self) (actual self)
            (actuals self ++ [v]) (other self).

Definition set_other (p : Pattern) (self : matcher) : matcher :=
  mkMatcher (cls self) (description self) (validator self) (actual self)
            (actuals self) (Some p).

Module AnyUUID.
(** The override of [_validator]; it does not read [self]. *)
Definition _validator `{Runtime} (other : value) : result bool :=
  if negb (isinstance_str other || isinstance_UUID other) then Ok false
  else match UUID other with
       | Ok _ => Ok true
       | Raise ValueError => Ok false
       | Raise e => Raise e
       end.
End AnyUUID.

Module AnyIf.
(** [__init__] of a new instance of class [k] at address [addr].  The
    source assigns [self.actual = _not_matched]. *)
Definition __init__ (k : class) (addr : N) (validator : option callable) : matcher :=
  {| cls := k;
     description := object__repr__ (class_name k) addr;
     validator := validator;
     actual := _not_matched;
     actuals := [];
     other := None |}.

Definition compared (self : matcher) : bool :=
  negb (is_ (actual self) _not_compared).

Definition matched (self : matcher) : bool :=
  negb (is_ (actual self) _not_compared) && negb (is_ (actual self) _not_matched).

Definition _validator (self : matcher) (h : heap) (other : value) : result bool :=
  match validator self with
  | None => Ok true
  | Some f => f h other
  end.

(** [self._validator(other)]: the method of the instance's class. *)
Definition call_validator `{Runtime} (self : matcher) (h : heap) (other : value)
  : result bool :=
  match cls self with
  | CAnyUUID => AnyUUID._validator other
  | _ => _validator self h other
  end.

(** [__eq__] returns its result and the instance as it has become. An
    exception leaves the instance as it was. *)
Definition __eq__ `{Runtime} (self : matcher) (h : heap) (other : value)
  : result (bool * matcher) :=
  let* res := call_validator self h other in
  if res then Ok (res, append_actuals other (set_actual other self))
  else Ok (res, set_actual _not_matched self).

Definition __ne__ `{Runtime} (self : matcher) (h : heap) (other : value)
  : result (bool * matcher) :=
  let* (res, self') := __eq__ self h other in
  Ok (negb res, self').

Definition __repr__ `{Runtime} (self : matcher) : string :=
  if negb (compared self) then "<not compared: " +:+ description self +:+ ">"
  else if negb (matched self) then description self
  else py_repr (actual self).
End AnyIf.

Module AnyInteger.
Definition __init__ (addr : N) : matcher :=
  AnyIf.__init__ CAnyInteger addr (Some (fun _ v => Ok (isinstance_int v))).
End AnyInteger.

Module AnyString.
Definition __init__ (addr : N) : matcher :=
  AnyIf.__init__ CAnyString addr (Some (fun _ v => Ok (isinstance_str v))).
End AnyString.

Module AnyStringMatchingRegex.
Definition __init__ `{Runtime} (addr : N) (pattern : string) : result matcher :=
  let* pattern := re_compile pattern DOTALL in
  let self :=
    AnyIf.__init__ CAnyStringMatchingRegex addr
                   (Some (fun _ v => pattern_match pattern v)) in
  Ok (set_other pattern self).
End AnyStringMatchingRegex.

Module Unordered.
(** [items] is the location of the object given to the constructor; the
    closure looks it up whenever it is called. *)
Definition lambda (items : nat) : callable :=
  fun h v =>
    let* sv := sorted v in
    match h !! items with
    | Some it => let* si := sorted it in Ok (py_eq (VList sv) (VList si))
    | None => Raise SystemError
    end.

Definition __init__ (addr : N) (items : nat) : matcher :=
  AnyIf.__init__ CUnordered addr (Some (lambda items)).
End Unordered.

Module AnyOf.
(** [items] is the tuple of the positional arguments. *)
Definition __init__ `{Runtime} (addr : N) (items : list value) : matcher :=
  let self := AnyIf.__init__ CAnyOf addr (Some (fun _ v => Ok (py_in v items))) in
  set_description ("any of " +:+ py_repr (VTuple items)) self.
End AnyOf.

Module AnyWebURLString.
Definition lambda : callable :=
  fun _ v =>
    Ok (isinstance_str v &&
        match v with
        | VStr s => startswith s "http://" || startswith s "https://"
        | _ => false
        end).

Definition __init__ (addr : N) : matcher :=
  AnyIf.__init__ CAnyWebURLString addr (Some lambda).
End AnyWebURLString.

(** [AnyUUID] inherits [__init__]. *)
Definition new_AnyUUID (addr : N) : matcher := AnyIf.__init__ CAnyUUID addr None.

(** [AnyIf()] and [AnyIf(validator)]. *)
Definition new_AnyIf (addr : N) (validator : option callable) : matcher :=
  AnyIf.__init__ CAnyIf addr validator.

(** ** Comparing a dictionary with a dictionary that holds matchers *)

(** What a slot of the expected structure holds: a plain value or a
    reference to a matcher instance. *)
Inductive obj : Type :=
| OValue (v : value)
| OMatcher (r : nat).

(** The state a comparison runs in: the heap and the matcher instances. *)
Record pystate : Type := mkState {
  objects : heap;
  matchers : gmap nat matcher
}.

(** [a == b] for a plain value [a]: when [b] is a matcher, [type(a).__eq__]
    returns [NotImplemented] and the reflected [b.__eq__(a)] decides. *)
Definition rich_compare_eq `{Runtime} (a : value) (b : obj) (st : pystate)
  : result (bool * pystate) :=
  match b with
  | OValue w => Ok (py_eq a w, st)
  | OMatcher r =>
      match matchers st !! r with
      | Some m =>
          let* (res, m') := AnyIf.__eq__ m (objects st) a in
          Ok (res, mkState (objects st) (<[r := m']> (matchers st)))
      | None => Raise SystemError
      end
  end.

Fixpoint dict_lookup {A : Type} (key : value) (d : list (value * A)) : option A :=
  match d with
  | [] => None
  | (k, x) :: r => if py_eq k key then Some x else dict_lookup key r
  end.

(** [dict.__eq__]: after the sizes, the entries of the left dictionary are
    visited in insertion order; each key is looked up on the right and the
    two values are compared; the first difference ends the comparison. *)
Fixpoint dict_entries_equal `{Runtime} (a : list (value * value)) (b : list (value * obj))
  (st : pystate) : result (bool * pystate) :=
  match a with
  | [] => Ok (true, st)
  | (key, aval) :: rest =>
      match dict_lookup key b with
      | None => Ok (false, st)
      | Some bval =>
          let* (cmp, st') := rich_compare_eq aval bval st in
          if cmp then dict_entries_equal rest b st' else Ok (false, st')
      end
  end.

Definition dict_equal `{Runtime} (a : list (value * value)) (b : list (value * obj))
  (st : pystate) : result (bool * pystate) :=
  if Nat.eqb (length a) (length b) then dict_entries_equal a b st
  else Ok (false, st).

(** [test_matchers.test_diff]: the two matchers are created at addresses
    [a1] and [a2] and are referred to as 0 and 1; the result is the value
    of the compared expression and the state it leaves. *)
Definition test_diff_state `{Runtime} (a1 a2 : N) : pystate :=
  mkState ∅ (<[1%nat := AnyOf.__init__ a2 [VInt 456; VStr "789"]]>
             (<[0%nat := AnyInteger.__init__ a1]> ∅)).

Definition test_diff `{Runtime} (a1 a2 : N) : result (bool * pystate) :=
  dict_equal [(VStr "foo", VInt 123); (VStr "bar", VStr "456")]
             [(VStr "foo", OMatcher 0); (VStr "bar", OMatcher 1)]
             (test_diff_state a1 a2).

(** ** Sequences of comparisons on one matcher *)

Inductive operator : Type := OpEq | OpNe.

(** One comparison: the operator, the heap at that moment and the value. *)
Record comparison : Type := mkComparison {
  cmp_op : operator;
  cmp_heap : heap;
  cmp_value : value
}.

Definition compare `{Runtime} (self : matcher) (c : comparison) : result (bool * matcher) :=
  match cmp_op c with
  | OpEq => AnyIf.__eq__ self (cmp_heap c) (cmp_value c)
  | OpNe => AnyIf.__ne__ self (cmp_heap c) (cmp_value c)
  end.

(** The instance after a comparison; an exception leaves it untouched. *)
Definition step `{Runtime} (self : matcher) (c : comparison) : matcher :=
  match compare self c with
  | Ok (_, self') => self'
  | Raise _ => self
  end.

Definition run `{Runtime} (self : matcher) (cs : list comparison) : matcher :=
  fold_left step cs self.

(** Whether the validator of [self] accepts the value of [c] in the heap
    of [c]. *)
Definition accepts `{Runtime} (self : matcher) (c : comparison) : bool :=
  match AnyIf.call_validator self (cmp_heap c) (cmp_value c) with
  | Ok true => true
  | _ => false
  end.

(** The values of the comparisons that the validator accepts, in order. *)
Definition accepted `{Runtime} (self : matcher) (cs : list comparison) : list value :=
  map cmp_value (List.filter (accepts self) cs).

(** ** A runtime to evaluate examples in

    [repr] of the values whose strings need no escaping, [int(s, 16)] on
    plain hexadecimal digits, and patterns without metacharacters, which
    match when the string starts with them. *)
Module Sample.
Definition repr_int (n : Z) : string :=
  NilZero.string_of_int (Z.to_int n).

Definition pad_left (width : nat) (s : string) : string :=
  string_of_list_ascii (repeat "0"%char (width - String.length s)) +:+ s.

Definition repr_uuid (n : Z) : string :=
  let h := pad_left 32 (hex_digits (Z.to_N n)) in
  "UUID('" +:+ String.substring 0 8 h +:+ "-" +:+ String.substring 8 4 h +:+ "-"
  +:+ String.substring 12 4 h +:+ "-" +:+ String.substring 16 4 h +:+ "-"
  +:+ String.substring 20 12 h +:+ "')".

Fixpoint join (sep : string) (l : list string) : string :=
  match l with
  | [] => ""
  | [s] => s
  | s :: r => s +:+ sep +:+ join sep r
  end.

Fixpoint repr (v : value) : string :=
  match v with
  | VNone => "None"
  | VBool true => "True"
  | VBool false => "False"
  | VInt n => repr_int n
  | VStr s => "'" +:+ s +:+ "'"
  | VUUID n => repr_uuid n
  | VTuple [x] => "(" +:+ repr x +:+ ",)"
  | VTuple l => "(" +:+ join ", " (map repr l) +:+ ")"
  | VList l => "[" +:+ join ", " (map repr l) +:+ "]"
  | VObject id => object__repr__ "object" (N.of_nat id)
  end.

Definition hex_digit (c : ascii) : option Z :=
  let n := Z.of_N (N_of_ascii c) in
  if (48 <=? n) && (n <=? 57) then Some (n - 48)
  else if (97 <=? n) && (n <=? 102) then Some (n - 87)
  else if (65 <=? n) && (n <=? 70) then Some (n - 55)
  else None.

Fixpoint parse_hex (acc : Z) (s : string) : option Z :=
  match s with
  | EmptyString => Some acc
  | String c r =>
      match hex_digit c with
      | Some d => parse_hex (16 * acc + d) r
      | None => None
      end
  end.

Definition hex_int (s : string) : option Z :=
  match s with
  | EmptyString => None
  | _ => parse_hex 0 s
  end.

Definition runtime : Runtime :=
  Build_Runtime repr hex_int (fun _ => true)
                (fun p s => String.prefix (pattern_source p) s).
End Sample.

(** The validator that runs depends on the class and on the [validator]
    attribute only; two instances that agree on them follow the same rule. *)
Definition same_rule (m1 m2 : matcher) : Prop :=
  cls m1 = cls m2 /\ validator m1 = validator m2.

(** [items.append(x)] on the list object at [l]. *)
Definition list_append (h : heap) (l : nat) (x : value) : heap :=
  match h !! l with
  | Some (VList xs) => <[l := VList (xs ++ [x])]> h
  | _ => h
  end.

(** [sorted(v) == sorted(expected)]. *)
Definition sorted_equal (expected v : value) : result bool :=
  let* sv := sorted v in
  let* si := sorted expected in
  Ok (py_eq (VList sv) (VList si)).

(** What the specification says of [Unordered]: a matcher built around a
    collection whose content was [snapshot] at construction compares with
    [snapshot] in whatever heap it is called later. *)
Definition Unordered_snapshot_spec `{Runtime} (self : matcher) (snapshot : value) : Prop :=
  forall (later : heap) (v : value),
    AnyIf.call_validator self later v = sorted_equal snapshot v.

(** Insertion sort on integers, of the shape of [sort_values]. *)
Fixpoint insert_Z (x : Z) (l : list Z) : list Z :=
  match l with
  | [] => [x]
  | y :: r => if y <? x then y :: insert_Z x r else x :: y :: r
  end.

Fixpoint sort_Z (l : list Z) : list Z :=
  match l with
  | [] => []
  | x :: r => insert_Z x (sort_Z r)
  end.

(** * Properties *)

(** ** Equality of values *)

Lemma seq_eq_refl (l : list value) :
  Forall (fun v => py_eq v v = true) l -> seq_eq l l = true.
Proof.
  induction 1 as [|x r Hx _ IH]; simpl; [reflexivity|].
  now rewrite Hx, IH.
Qed.

Lemma py_eq_VList (l1 l2 : list value) : py_eq (VList l1) (VList l2) = seq_eq l1 l2.
Proof. reflexivity. Qed.

Lemma py_eq_VTuple (l1 l2 : list value) : py_eq (VTuple l1) (VTuple l2) = seq_eq l1 l2.
Proof. reflexivity. Qed.

Lemma py_eq_refl (v : value) : py_eq v v = true.
Proof.
  induction v as [| b | n | s | n | l IH | l IH | id] using value_ind_deep.
  - reflexivity.
  - now destruct b.
  - apply Z.eqb_refl.
  - apply String.eqb_refl.
  - apply Z.eqb_refl.
  - rewrite py_eq_VTuple. now apply seq_eq_refl.
  - rewrite py_eq_VList. now apply seq_eq_refl.
  - apply Nat.eqb_refl.
Qed.

(** ** What a comparison does to an instance *)

Section comparison.
Context `{Runtime}.

Lemma call_validator_same_rule (m1 m2 : matcher) (h : heap) (v : value) :
  same_rule m1 m2 -> AnyIf.call_validator m1 h v = AnyIf.call_validator m2 h v.
Proof.
  intros [Hc Hv]. unfold AnyIf.call_validator, AnyIf._validator.
  now rewrite Hc, Hv.
Qed.

(** [__eq__] by cases on what the validator returns. *)
Lemma eq_accept (self : matcher) (h : heap) (v : value) :
  AnyIf.call_validator self h v = Ok true ->
  AnyIf.__eq__ self h v = Ok (true, append_actuals v (set_actual v self)).
Proof. intros Hv. unfold AnyIf.__eq__. now rewrite Hv. Qed.

Lemma eq_reject (self : matcher) (h : heap) (v : value) :
  AnyIf.call_validator self h v = Ok false ->
  AnyIf.__eq__ self h v = Ok (false, set_actual _not_matched self).
Proof. intros Hv. unfold AnyIf.__eq__. now rewrite Hv. Qed.

Lemma eq_raise (self : matcher) (h : heap) (v : value) (e : exn) :
  AnyIf.call_validator self h v = Raise e ->
  AnyIf.__eq__ self h v = Raise e.
Proof. intros Hv. unfold AnyIf.__eq__. now rewrite Hv. Qed.

Lemma eq_inv (self self' : matcher) (h : heap) (v : value) (res : bool) :
  AnyIf.__eq__ self h v = Ok (res, self') ->
  AnyIf.call_validator self h v = Ok res /\
  self' = if res then append_actuals v (set_actual v self)
          else set_actual _not_matched self.
Proof.
  unfold AnyIf.__eq__.
  destruct (AnyIf.call_validator self h v) as [[|]|e]; simpl; intros Heq;
    inversion Heq; subst; auto.
Qed.

Lemma ne_unfold (self : matcher) (h : heap) (v : value) :
  AnyIf.__ne__ self h v =
  match AnyIf.__eq__ self h v with
  | Ok (res, self') => Ok (negb res, self')
  | Raise e => Raise e
  end.
Proof.
  unfold AnyIf.__ne__. destruct (AnyIf.__eq__ self h v) as [[res self']|e]; reflexivity.
Qed.

Lemma compare_same_rule (self self' : matcher) (c : comparison) (res : bool) :
  compare self c = Ok (res, self') -> same_rule self self'.
Proof.
  unfold compare. destruct (cmp_op c).
  - intros Heq. apply eq_inv in Heq as [_ ->]. destruct res; split; reflexivity.
  - rewrite ne_unfold.
    destruct (AnyIf.__eq__ self (cmp_heap c) (cmp_value c)) as [[r s]|e] eqn:Heq;
      [|discriminate].
    intros Hne. inversion Hne; subst.
    apply eq_inv in Heq as [_ ->]. destruct r; split; reflexivity.
Qed.

Lemma step_same_rule (self : matcher) (c : comparison) : same_rule self (step self c).
Proof.
  unfold step. destruct (compare self c) as [[res self']|e] eqn:Hc.
  - eapply compare_same_rule; eauto.
  - split; reflexivity.
Qed.
End comparison.

(** ** Construction *)

Section construction.
Context `{Runtime}.

(** C1 (as the code behaves).  [__init__] stores the sentinel
    [_not_matched], not [_not_compared], in [actual]: a freshly
    constructed matcher of any class, given any validator, already
    counts as compared, while it does not count as matched.  The claim
    expects [compared] to be false. *)
Theorem C1_fresh_matcher_counts_as_compared
  (k : class) (addr : N) (val : option callable) :
  actual (AnyIf.__init__ k addr val) = _not_matched /\
  is_ (actual (AnyIf.__init__ k addr val)) _not_compared = false /\
  AnyIf.compared (AnyIf.__init__ k addr val) = true /\
  AnyIf.matched (AnyIf.__init__ k addr val) = false /\
  actuals (AnyIf.__init__ k addr val) = [].
Proof. repeat split. Qed.

(** The subclasses construct through [AnyIf.__init__] and do not touch
    [actual] afterwards. *)
Lemma fresh_subclass_actual (addr : N) (items : list value) (l : nat) :
  actual (AnyInteger.__init__ addr) = _not_matched /\
  actual (AnyString.__init__ addr) = _not_matched /\
  actual (new_AnyUUID addr) = _not_matched /\
  actual (Unordered.__init__ addr l) = _not_matched /\
  actual (AnyOf.__init__ addr items) = _not_matched /\
  actual (AnyWebURLString.__init__ addr) = _not_matched.
Proof. repeat split. Qed.

Lemma fresh_regex_actual (addr : N) (pat : string) (m : matcher) :
  AnyStringMatchingRegex.__init__ addr pat = Ok m -> actual m = _not_matched.
Proof.
  unfold AnyStringMatchingRegex.__init__, re_compile.
  destruct (re_valid pat); simpl; [|discriminate].
  intros Hm. inversion Hm. reflexivity.
Qed.
End construction.

(** ** One comparison *)

Section one_comparison.
Context `{Runtime}.

(** C10.  [AnyInteger()] accepts both booleans: the comparison returns
    true and records the boolean. *)
Theorem C10_AnyInteger_accepts_bool (addr : N) (h : heap) (b : bool) :
  AnyIf.__eq__ (AnyInteger.__init__ addr) h (VBool b) =
    Ok (true, append_actuals (VBool b) (set_actual (VBool b) (AnyInteger.__init__ addr))) /\
  isinstance_int (VBool b) = true.
Proof. split; reflexivity. Qed.

(** C8.  [__ne__] is the negation of [__eq__]: on every instance, heap
    and value, either both return, with opposite results and the same
    instance afterwards (so the same [actual] and [actuals]), or both
    raise the same exception. *)
Theorem C8_ne_negates_eq (self : matcher) (h : heap) (v : value) :
  match AnyIf.__eq__ self h v, AnyIf.__ne__ self h v with
  | Ok (e, s1), Ok (n, s2) =>
      e = negb n /\ s1 = s2 /\ actual s1 = actual s2 /\ actuals s1 = actuals s2
  | Raise e1, Raise e2 => e1 = e2
  | _, _ => False
  end.
Proof.
  rewrite ne_unfold.
  destruct (AnyIf.__eq__ self h v) as [[res self']|e]; [|reflexivity].
  now rewrite negb_involutive.
Qed.

(** C7 (amended).  When [m.__eq__(v)] returns [res]: the validator
    returned [res]; if [res] is true then [actual] is [v], equal to [v]
    by [==], [v] is the last element of [actuals], and [matched] is true
    exactly when [v] is neither of the two sentinel objects; if [res] is
    false then [matched] is false and [compared] is true. *)
Theorem C7_state_after_eq
  (m m' : matcher) (h : heap) (v : value) (res : bool) :
  AnyIf.__eq__ m h v = Ok (res, m') ->
  AnyIf.call_validator m h v = Ok res /\
  if res
  then actual m' = v /\ py_eq (actual m') v = true /\ last (actuals m') = Some v /\
       AnyIf.matched m' = negb (is_ v _not_compared) && negb (is_ v _not_matched)
  else AnyIf.matched m' = false /\ AnyIf.compared m' = true.
Proof.
  intros Heq. apply eq_inv in Heq as [Hv ->]. split; [exact Hv|].
  destruct res; simpl.
  - repeat split.
    + apply py_eq_refl.
    + apply last_snoc.
  - split; reflexivity.
Qed.
End one_comparison.

(** ** Sequences of comparisons *)

Section history.
Context `{Runtime}.

Lemma accepts_same_rule (m1 m2 : matcher) (c : comparison) :
  same_rule m1 m2 -> accepts m1 c = accepts m2 c.
Proof.
  intros Hr. unfold accepts. now rewrite (call_validator_same_rule m1 m2).
Qed.

Lemma step_actuals (self : matcher) (c : comparison) :
  actuals (step self c) =
  actuals self ++ (if accepts self c then [cmp_value c] else []).
Proof.
  unfold step, compare, accepts. destruct (cmp_op c); [|rewrite ne_unfold];
    unfold AnyIf.__eq__;
    destruct (AnyIf.call_validator self (cmp_heap c) (cmp_value c)) as [[|]|e];
    simpl; try reflexivity; now rewrite app_nil_r.
Qed.

Lemma accepted_same_rule (m1 m2 : matcher) (cs : list comparison) :
  same_rule m1 m2 -> accepted m1 cs = accepted m2 cs.
Proof.
  intros Hr. unfold accepted. f_equal.
  induction cs as [|c cs IH]; simpl; [reflexivity|].
  now rewrite (accepts_same_rule m1 m2 c Hr), IH.
Qed.

Lemma run_actuals (self : matcher) (cs : list comparison) :
  actuals (run self cs) = actuals self ++ accepted self cs.
Proof.
  revert self. induction cs as [|c cs IH]; intros self.
  - simpl. unfold accepted. simpl. now rewrite app_nil_r.
  - change (run self (c :: cs)) with (run (step self c) cs).
    rewrite IH, step_actuals.
    rewrite <- (accepted_same_rule self (step self c) cs (step_same_rule self c)).
    unfold accepted. simpl. destruct (accepts self c); simpl.
    + now rewrite <- app_assoc.
    + now rewrite app_nil_r.
Qed.

Lemma filter_accepts_sublist (self : matcher) (cs : list comparison) :
  sublist (List.filter (accepts self) cs) cs.
Proof.
  induction cs as [|c cs IH]; simpl; [constructor|].
  destruct (accepts self c); now constructor.
Qed.

Lemma filter_accepts_validated (self : matcher) (cs : list comparison) :
  Forall (fun c => AnyIf.call_validator self (cmp_heap c) (cmp_value c) = Ok true)
         (List.filter (accepts self) cs).
Proof.
  induction cs as [|c cs IH]; simpl; [constructor|].
  destruct (accepts self c) eqn:Hc; [|exact IH].
  constructor; [|exact IH].
  unfold accepts in Hc.
  destruct (AnyIf.call_validator self (cmp_heap c) (cmp_value c)) as [[|]|e];
    congruence.
Qed.

(** C9.  Over any sequence of [==] and [!=] comparisons on a matcher:
    - one comparison appends the compared value to [actuals] when the
      validator accepts it and leaves [actuals] as it was otherwise;
    - after the whole sequence, [actuals] is what it was at the start
      followed by the accepted values, in the order of the comparisons;
    - what was appended are the values of a subsequence of the
      comparisons, each of which the validator accepted in the heap of
      its comparison; for a matcher that started with an empty
      [actuals], as [__init__] leaves it, that is all of [actuals]. *)
Theorem C9_actuals_append_only (self : matcher) (cs : list comparison) :
  (forall c, actuals (step self c) =
             actuals self ++ (if accepts self c then [cmp_value c] else [])) /\
  actuals (run self cs) = actuals self ++ accepted self cs /\
  (exists cs',
      sublist cs' cs /\
      actuals (run self cs) = actuals self ++ map cmp_value cs' /\
      Forall (fun c => AnyIf.call_validator self (cmp_heap c) (cmp_value c) = Ok true) cs') /\
  (forall k addr val,
      actuals (run (AnyIf.__init__ k addr val) cs) =
      accepted (AnyIf.__init__ k addr val) cs).
Proof.
  split; [apply step_actuals|].
  split; [apply run_actuals|].
  split.
  - exists (List.filter (accepts self) cs).
    split; [apply filter_accepts_sublist|].
    split; [apply run_actuals|apply filter_accepts_validated].
  - intros k addr val. now rewrite run_actuals.
Qed.
End history.

(** ** The scenario of [test_matchers.py] *)

Section scenario.
Context `{Runtime}.

(** The outcome of [test_diff], without the state. *)
Lemma test_diff_result (a1 a2 : N) :
  match test_diff a1 a2 with
  | Ok (res, _) => res = false
  | Raise _ => False
  end.
Proof. reflexivity. Qed.

(** C2 (amended).  The comparison of [test_diff] is false.  The left
    dictionary is walked in order: under "foo" [AnyInteger()] accepts
    123 and ends with [actual == 123], matched; under "bar"
    [AnyOf(456, "789")] rejects "456", which is a member of neither
    alternative, and ends with [actual] the sentinel [_not_matched],
    not matched and not equal to "456". *)
Theorem C2_test_diff_is_false (a1 a2 : N) :
  exists st,
    test_diff a1 a2 = Ok (false, st) /\
    actual <$> (matchers st !! 0%nat) = Some (VInt 123) /\
    AnyIf.matched <$> (matchers st !! 0%nat) = Some true /\
    actual <$> (matchers st !! 1%nat) = Some _not_matched /\
    AnyIf.matched <$> (matchers st !! 1%nat) = Some false /\
    py_in (VStr "456") [VInt 456; VStr "789"] = false /\
    py_eq _not_matched (VStr "456") = false.
Proof.
  eexists. split; [reflexivity|].
  repeat split.
Qed.
End scenario.

(** C2 as stated (the comparison is true and the [AnyOf] instance ends with
    [actual == "456"]) does not hold. *)
Lemma C2_counterexample :
  ~ (exists st,
        @test_diff Sample.runtime 139876543210000 139876543210448 = Ok (true, st) /\
        actual <$> (matchers st !! 0%nat) = Some (VInt 123) /\
        actual <$> (matchers st !! 1%nat) = Some (VStr "456")).
Proof.
  intros [st [Heq _]].
  pose proof (test_diff_result (H:=Sample.runtime) 139876543210000 139876543210448) as Hres.
  rewrite Heq in Hres. discriminate.
Qed.

(** ** Values of the wrong type *)

Section type_mismatch.
Context `{Runtime}.

Lemma sorted_not_iterable (v : value) :
  iterate v = Raise TypeError -> sorted v = Raise TypeError.
Proof. intros Hv. unfold sorted. now rewrite Hv. Qed.

Lemma regex_matcher_inv (addr : N) (pat : string) (m : matcher) :
  AnyStringMatchingRegex.__init__ addr pat = Ok m ->
  exists p, re_compile pat DOTALL = Ok p /\
            cls m = CAnyStringMatchingRegex /\
            validator m = Some (fun _ v => pattern_match p v) /\
            other m = Some p.
Proof.
  unfold AnyStringMatchingRegex.__init__.
  destruct (re_compile pat DOTALL) as [p|e]; simpl; [|discriminate].
  intros Hm. inversion Hm. exists p. repeat split.
Qed.

(** C3 (as the code behaves).  [__eq__] lets exceptions of the validator
    through:
    - a matcher built by [AnyStringMatchingRegex] raises [TypeError] on
      every value that is not a string;
    - [Unordered] raises [TypeError] on every value that cannot be
      iterated, and on a list whose elements have no order among them;
    - [AnyUUID] raises [AttributeError] on every UUID object.
    The claim expects the result false in each case. *)
Theorem C3_equality_can_raise :
  (forall addr pat m h v,
      AnyStringMatchingRegex.__init__ addr pat = Ok m ->
      isinstance_str v = false ->
      AnyIf.__eq__ m h v = Raise TypeError) /\
  (forall addr items h v,
      iterate v = Raise TypeError ->
      AnyIf.__eq__ (Unordered.__init__ addr items) h v = Raise TypeError) /\
  (forall addr items h,
      AnyIf.__eq__ (Unordered.__init__ addr items) h (VList [VInt 1; VStr "a"]) =
      Raise TypeError) /\
  (forall addr h u,
      AnyIf.__eq__ (new_AnyUUID addr) h (VUUID u) = Raise AttributeError).
Proof.
  repeat split.
  - intros addr pat m h v Hm Hv.
    apply regex_matcher_inv in Hm as (p & _ & Hc & Hval & _).
    apply eq_raise. unfold AnyIf.call_validator, AnyIf._validator.
    rewrite Hc, Hval. destruct v; try reflexivity. discriminate.
  - intros addr items h v Hv. apply eq_raise.
    unfold AnyIf.call_validator, AnyIf._validator; simpl.
    unfold Unordered.lambda. now rewrite (sorted_not_iterable v Hv).
Qed.
End type_mismatch.

(** The hypotheses of C3 at ["^abc"] compared with 123 and at an
    [Unordered] compared with 7. *)
Lemma C3_witness :
  (exists m,
      @AnyStringMatchingRegex.__init__ Sample.runtime 139876543210000 "^abc" = Ok m /\
      @AnyIf.__eq__ Sample.runtime m ∅ (VInt 123) = Raise TypeError) /\
  @AnyIf.__eq__ Sample.runtime (Unordered.__init__ 139876543210000 0) ∅ (VInt 7) =
    Raise TypeError.
Proof.
  split.
  - eexists. split; [reflexivity|].
    apply (proj1 (@C3_equality_can_raise Sample.runtime) 139876543210000%N "^abc"%string);
      reflexivity.
  - apply (proj1 (proj2 (@C3_equality_can_raise Sample.runtime))); reflexivity.
Defined.

(** C7 as stated does not hold: [AnyIf()] accepts the sentinel object
    [_not_matched], [__eq__] returns true, and [matched] is false
    afterwards. *)
Lemma C7_counterexample :
  exists m',
    @AnyIf.__eq__ Sample.runtime (new_AnyIf 139876543210000 None) ∅ _not_matched
      = Ok (true, m') /\
    AnyIf.matched m' = false.
Proof. eexists. split; reflexivity. Qed.

(** C7 at [AnyInteger()] compared with 5: the hypothesis holds and the
    conclusion reads as follows. *)
Lemma C7_witness :
  let m := AnyInteger.__init__ 139876543210000 in
  let m' := append_actuals (VInt 5) (set_actual (VInt 5) m) in
  @AnyIf.__eq__ Sample.runtime m ∅ (VInt 5) = Ok (true, m') /\
  @AnyIf.call_validator Sample.runtime m ∅ (VInt 5) = Ok true /\
  actual m' = VInt 5 /\ py_eq (actual m') (VInt 5) = true /\
  last (actuals m') = Some (VInt 5) /\ AnyIf.matched m' = true.
Proof.
  intros m m'. split; [reflexivity|].
  exact (@C7_state_after_eq Sample.runtime m m' ∅ (VInt 5) true eq_refl).
Defined.

Section uuid.
Context `{Runtime}.

(** [UUID] of a string returns or raises [ValueError]. *)
Lemma UUID_str (s : string) :
  (exists n, UUID (VStr s) = Ok n) \/ UUID (VStr s) = Raise ValueError.
Proof.
  unfold UUID.
  destruct (negb _); [now right|].
  destruct (int16 _) as [n|]; [|now right].
  destruct (_ && _); [left; now exists n|now right].
Qed.

(** C5 (as the code behaves).  On a UUID object [AnyUUID()] raises
    [AttributeError]: [UUID(other)] takes its argument for a string.
    The claim expects true.  On a string the comparison never raises
    and accepts exactly when [UUID(other)] returns; "not-a-uuid" is
    rejected and [matched] is false afterwards; a value that is neither
    a string nor a UUID is rejected. *)
Theorem C5_AnyUUID (addr : N) (h : heap) :
  (forall u, AnyIf.__eq__ (new_AnyUUID addr) h (VUUID u) = Raise AttributeError) /\
  (forall s,
      AnyIf.__eq__ (new_AnyUUID addr) h (VStr s) =
      match UUID (VStr s) with
      | Ok _ => Ok (true, append_actuals (VStr s) (set_actual (VStr s) (new_AnyUUID addr)))
      | Raise _ => Ok (false, set_actual _not_matched (new_AnyUUID addr))
      end) /\
  AnyIf.__eq__ (new_AnyUUID addr) h (VStr "not-a-uuid") =
    Ok (false, set_actual _not_matched (new_AnyUUID addr)) /\
  AnyIf.matched (set_actual _not_matched (new_AnyUUID addr)) = false /\
  (forall v,
      if isinstance_str v || isinstance_UUID v then True
      else AnyIf.__eq__ (new_AnyUUID addr) h v =
           Ok (false, set_actual _not_matched (new_AnyUUID addr))).
Proof.
  split; [reflexivity|].
  split.
  { intros s. unfold AnyIf.__eq__, AnyIf.call_validator, AnyUUID._validator.
    cbn [new_AnyUUID AnyIf.__init__ cls isinstance_str isinstance_UUID orb negb].
    destruct (UUID_str s) as [[n Hn]| Hn]; rewrite Hn; reflexivity. }
  split; [reflexivity|].
  split; [reflexivity|].
  intros v. destruct v; reflexivity.
Qed.
End uuid.

(** ** The default description never reads "not compared" *)

Section default_description.
Lemma prefix_no_n (c : ascii) (r : string) :
  Ascii.eqb c "n" = false -> String.prefix "not compared" (String c r) = false.
Proof.
  intros Hc.
  change (String.prefix "not compared" (String c r))
    with (if ascii_dec "n" c then String.prefix "ot compared" r else false).
  destruct (ascii_dec "n" c) as [<-|]; [discriminate|reflexivity].
Qed.

Lemma str_contains_no_n (s : string) :
  no_n s = true -> str_contains "not compared" s = false.
Proof.
  induction s as [|c r IH]; [reflexivity|].
  cbn [no_n]. rewrite andb_true_iff, negb_true_iff. intros [Hc Hr].
  cbn [str_contains]. now rewrite (prefix_no_n c r Hc), (IH Hr).
Qed.

Lemma of_pos_no_n (n : nat) :
  forall (p : positive) (rest : string),
    (Pos.size_nat p <= n)%nat -> no_n rest = true ->
    no_n (HexString.Raw.of_pos p rest) = true.
Proof.
  induction n as [|n IH]; intros p rest Hsize Hrest.
  - destruct p; simpl in Hsize; lia.
  - destruct p as [p|p|];
      try (destruct p as [p|p|];
           try (destruct p as [p|p|];
                try (destruct p as [p|p|])));
      cbn [HexString.Raw.of_pos];
      try (apply IH; [simpl in Hsize; lia | cbn [no_n]; now rewrite Hrest]);
      cbn [no_n]; now rewrite Hrest.
Qed.

Lemma hex_digits_no_n (addr : N) (rest : string) :
  no_n rest = true -> no_n (hex_digits addr +:+ rest) = true.
Proof.
  intros Hrest. destruct addr as [|p]; [exact Hrest|].
  unfold hex_digits, HexString.of_N, HexString.of_pos.
  revert Hrest. generalize (le_n (Pos.size_nat p)).
  generalize (of_pos_no_n (Pos.size_nat p) p).
  generalize (HexString.Raw.of_pos p).
  intros f Hf Hle Hrest.
  (* the digits are followed by [rest] *)
  assert (Hgen : forall s, no_n s = true -> no_n (s +:+ rest) = true).
  { induction s as [|c s IHs]; [intros _; exact Hrest|].
    simpl. rewrite !andb_true_iff. intros [Hc Hs].
    split; [exact Hc|now apply IHs]. }
  apply Hgen. apply Hf; [exact Hle|reflexivity].
Qed.

Lemma default_description_not_compared (addr : N) :
  str_contains "not compared" (object__repr__ "AnyInteger" addr) = false.
Proof.
  unfold object__repr__.
  pose proof (hex_digits_no_n addr ">" eq_refl) as Hn.
  apply str_contains_no_n in Hn. revert Hn.
  generalize (hex_digits addr +:+ ">")%string. intros tail Htail.
  cbn. exact Htail.
Qed.
End default_description.

(** ** Representation *)

Section representation.
Context `{Runtime}.

(** C4 (as the code behaves).  [__repr__] has three branches, chosen by
    [actual]: the description wrapped in [<not compared: ...>] when
    [actual] is [_not_compared], the bare description when it is
    [_not_matched], and [repr(actual)] otherwise.  As [__init__] stores
    [_not_matched], a matcher that was never compared takes the second
    branch: [repr(AnyInteger())] is the bare default description,
    which at no address contains "not compared".  The claim expects the
    first branch there. *)
Theorem C4_repr_of_never_compared (addr : N) :
  (forall self,
      AnyIf.__repr__ self =
      if is_ (actual self) _not_compared
      then "<not compared: " +:+ description self +:+ ">"
      else if is_ (actual self) _not_matched then description self
           else py_repr (actual self)) /\
  AnyIf.__repr__ (AnyInteger.__init__ addr) = description (AnyInteger.__init__ addr) /\
  AnyIf.__repr__ (AnyInteger.__init__ addr) = object__repr__ "AnyInteger" addr /\
  str_contains "not compared" (AnyIf.__repr__ (AnyInteger.__init__ addr)) = false /\
  AnyIf.__repr__ (AnyInteger.__init__ 139876543210000) =
    "<matchers.AnyInteger object at 0x7f378baba210>".
Proof.
  split.
  - intros self. unfold AnyIf.__repr__, AnyIf.compared, AnyIf.matched.
    destruct (is_ (actual self) _not_compared); simpl; [reflexivity|].
    destruct (is_ (actual self) _not_matched); reflexivity.
  - split; [reflexivity|]. split; [reflexivity|].
    split; [|reflexivity].
    apply default_description_not_compared.
Qed.
End representation.

(** ** [Unordered] *)

Section sorting_integers.
Lemma insert_sorted_ints (x : Z) (l : list Z) :
  insert_sorted (VInt x) (map VInt l) = Ok (map VInt (insert_Z x l)).
Proof.
  induction l as [|y r IH]; simpl; [reflexivity|].
  destruct (y <? x); simpl; [|reflexivity].
  now rewrite IH.
Qed.

Lemma sort_values_ints (l : list Z) :
  sort_values (map VInt l) = Ok (map VInt (sort_Z l)).
Proof.
  induction l as [|x r IH]; simpl; [reflexivity|].
  rewrite IH. simpl. apply insert_sorted_ints.
Qed.

Lemma insert_Z_perm (x : Z) (l : list Z) : insert_Z x l ≡ₚ x :: l.
Proof.
  induction l as [|y r IH]; simpl; [reflexivity|].
  destruct (y <? x); [|reflexivity].
  rewrite IH. apply Permutation_swap.
Qed.

Lemma sort_Z_perm (l : list Z) : sort_Z l ≡ₚ l.
Proof.
  induction l as [|x r IH]; simpl; [reflexivity|].
  now rewrite insert_Z_perm, IH.
Qed.

Lemma insert_Z_sorted (x : Z) (l : list Z) :
  StronglySorted Z.le l -> StronglySorted Z.le (insert_Z x l).
Proof.
  induction 1 as [|y r Hr IH Hy]; simpl.
  - repeat constructor.
  - destruct (Z.ltb_spec y x) as [Hlt|Hge].
    + constructor; [exact IH|].
      rewrite insert_Z_perm. constructor; [lia|exact Hy].
    + constructor; [now constructor|].
      constructor; [exact Hge|].
      eapply Forall_impl; [exact Hy|]. intros z Hz. simpl in Hz. lia.
Qed.

Lemma sort_Z_sorted (l : list Z) : StronglySorted Z.le (sort_Z l).
Proof.
  induction l as [|x r IH]; simpl; [constructor|].
  now apply insert_Z_sorted.
Qed.

Lemma sort_Z_eq_iff_perm (l1 l2 : list Z) : sort_Z l1 = sort_Z l2 <-> l1 ≡ₚ l2.
Proof.
  split.
  - intros Heq. rewrite <- (sort_Z_perm l1), <- (sort_Z_perm l2). now rewrite Heq.
  - intros Hp. apply (StronglySorted_unique_strong Z.le).
    + intros; lia.
    + apply sort_Z_sorted.
    + apply sort_Z_sorted.
    + now rewrite !sort_Z_perm.
Qed.

Lemma seq_eq_ints (l1 l2 : list Z) :
  seq_eq (map VInt l1) (map VInt l2) = true <-> l1 = l2.
Proof.
  revert l2. induction l1 as [|x r IH]; intros [|y r2]; simpl; try easy.
  rewrite andb_true_iff, IH, Z.eqb_eq. split.
  - now intros [-> ->].
  - intros Heq. now inversion Heq.
Qed.

(** On lists of integers [sorted_equal] decides whether one list is a
    rearrangement of the other. *)
Lemma sorted_equal_ints (expected l : list Z) :
  exists b, sorted_equal (VList (map VInt expected)) (VList (map VInt l)) = Ok b /\
            (b = true <-> l ≡ₚ expected).
Proof.
  unfold sorted_equal, sorted, iterate. cbn [rbind].
  rewrite !sort_values_ints. cbn [rbind].
  eexists. split; [reflexivity|].
  rewrite py_eq_VList, seq_eq_ints. apply sort_Z_eq_iff_perm.
Qed.
End sorting_integers.

Section unordered.
Context `{Runtime}.

Lemma Unordered_call_validator (addr : N) (items : nat) (h : heap) (it v : value) :
  h !! items = Some it ->
  AnyIf.call_validator (Unordered.__init__ addr items) h v = sorted_equal it v.
Proof.
  intros Hit. unfold AnyIf.call_validator, AnyIf._validator; simpl.
  unfold Unordered.lambda, sorted_equal. now rewrite Hit.
Qed.

(** A matcher around a list of integers accepts the rearrangements of
    what the list holds when the comparison is made. *)
Lemma Unordered_accepts_rearrangements
  (addr : N) (items : nat) (h : heap) (expected l : list Z) :
  h !! items = Some (VList (map VInt expected)) ->
  exists b, AnyIf.call_validator (Unordered.__init__ addr items) h (VList (map VInt l)) = Ok b /\
            (b = true <-> l ≡ₚ expected).
Proof.
  intros Hit. rewrite (Unordered_call_validator _ _ _ _ _ Hit).
  apply sorted_equal_ints.
Qed.

(** C6 (amended).  [Unordered(items)] keeps a reference to [items], not
    a copy: it accepts [other] exactly when [sorted(other)] equals
    [sorted] of what the collection holds when the comparison is made,
    and the comparison raises what [sorted] raises.  With the list
    [[3, 1, 2]] in place, [[2, 3, 1]] is accepted and [[1, 2]] is
    rejected. *)
Theorem C6_Unordered_reads_items_when_compared
  (addr : N) (items : nat) (h : heap) (it : value) :
  h !! items = Some it ->
  (forall v, AnyIf.call_validator (Unordered.__init__ addr items) h v = sorted_equal it v) /\
  (forall v,
      AnyIf.__eq__ (Unordered.__init__ addr items) h v =
      match sorted_equal it v with
      | Ok true => Ok (true, append_actuals v (set_actual v (Unordered.__init__ addr items)))
      | Ok false => Ok (false, set_actual _not_matched (Unordered.__init__ addr items))
      | Raise e => Raise e
      end) /\
  (forall h' : heap,
      AnyIf.call_validator (Unordered.__init__ addr items)
        (<[items := VList [VInt 3; VInt 1; VInt 2]]> h')
        (VList [VInt 2; VInt 3; VInt 1]) = Ok true /\
      AnyIf.call_validator (Unordered.__init__ addr items)
        (<[items := VList [VInt 3; VInt 1; VInt 2]]> h')
        (VList [VInt 1; VInt 2]) = Ok false).
Proof.
  intros Hit. split; [|split].
  - intros v. now apply Unordered_call_validator.
  - intros v. unfold AnyIf.__eq__.
    rewrite (Unordered_call_validator _ _ _ _ _ Hit).
    destruct (sorted_equal it v) as [[|]|e]; reflexivity.
  - intros h'. split.
    + rewrite (Unordered_call_validator _ _ _ (VList [VInt 3; VInt 1; VInt 2]));
        [reflexivity|apply lookup_insert_eq].
    + rewrite (Unordered_call_validator _ _ _ (VList [VInt 3; VInt 1; VInt 2]));
        [reflexivity|apply lookup_insert_eq].
Qed.
End unordered.

(** C6 at the list [[3, 1, 2]] stored at location 0. *)
Lemma C6_witness :
  let h : heap := {[ 0%nat := VList [VInt 3; VInt 1; VInt 2] ]} in
  h !! 0%nat = Some (VList [VInt 3; VInt 1; VInt 2]) /\
  @AnyIf.call_validator Sample.runtime (Unordered.__init__ 139876543210000 0) h
     (VList [VInt 2; VInt 3; VInt 1]) = Ok true.
Proof.
  intros h. split; [reflexivity|].
  rewrite (proj1 (@C6_Unordered_reads_items_when_compared Sample.runtime
                    139876543210000%N 0%nat h (VList [VInt 3; VInt 1; VInt 2]) eq_refl)).
  reflexivity.
Defined.

(** C6 as stated does not hold: a matcher is built around the list
    [[3, 1, 2]]; it accepts [[2, 3, 1]]; after [items.append(4)] on the
    same list it rejects [[2, 3, 1]] and accepts [[4, 2, 3, 1]], so it does
    not keep comparing with the content at construction. *)
Lemma C6_counterexample :
  let h0 : heap := {[ 0%nat := VList [VInt 3; VInt 1; VInt 2] ]} in
  let m := Unordered.__init__ 139876543210000 0 in
  let h1 := list_append h0 0 (VInt 4) in
  @AnyIf.call_validator Sample.runtime m h0 (VList [VInt 2; VInt 3; VInt 1]) = Ok true /\
  @AnyIf.call_validator Sample.runtime m h1 (VList [VInt 2; VInt 3; VInt 1]) = Ok false /\
  @AnyIf.call_validator Sample.runtime m h1 (VList [VInt 4; VInt 2; VInt 3; VInt 1]) = Ok true /\
  ~ @Unordered_snapshot_spec Sample.runtime m (VList [VInt 3; VInt 1; VInt 2]).
Proof.
  intros h0 m h1.
  assert (Hrej : @AnyIf.call_validator Sample.runtime m h1
                   (VList [VInt 2; VInt 3; VInt 1]) = Ok false) by reflexivity.
  repeat split; try reflexivity.
  intros Hspec. rewrite (Hspec h1) in Hrej. discriminate.
Qed.

(** * Further properties of the module *)

(** ** What comparisons leave alone, and what [actual] tells *)

Section frame.
Context `{Runtime}.

Lemma step_keeps_description (self : matcher) (c : comparison) :
  description (step self c) = description self /\ other (step self c) = other self.
Proof.
  unfold step, compare. destruct (cmp_op c); [|rewrite ne_unfold];
    unfold AnyIf.__eq__;
    destruct (AnyIf.call_validator self (cmp_heap c) (cmp_value c)) as [[|]|e];
    split; reflexivity.
Qed.

Lemma run_app (self : matcher) (cs1 cs2 : list comparison) :
  run self (cs1 ++ cs2) = run (run self cs1) cs2.
Proof. unfold run. apply fold_left_app. Qed.

Lemma run_same_rule (self : matcher) (cs : list comparison) :
  same_rule self (run self cs).
Proof.
  revert self. induction cs as [|c cs IH]; intros self; [split; reflexivity|].
  change (run self (c :: cs)) with (run (step self c) cs).
  destruct (step_same_rule self c) as [Hc Hv].
  destruct (IH (step self c)) as [Hc' Hv'].
  split; congruence.
Qed.

(** Comparisons never touch the configuration of a matcher: after any
    sequence of [==] and [!=], the class, the description, the validator
    and the attribute [other] are what they were. *)
Theorem comparisons_keep_configuration (self : matcher) (cs : list comparison) :
  cls (run self cs) = cls self /\
  description (run self cs) = description self /\
  validator (run self cs) = validator self /\
  other (run self cs) = other self.
Proof.
  destruct (run_same_rule self cs) as [Hc Hv].
  split; [now symmetry|]. split; [|split; [now symmetry|]].
  - revert self Hc Hv. induction cs as [|c cs IH]; intros self _ _; [reflexivity|].
    change (run self (c :: cs)) with (run (step self c) cs).
    destruct (run_same_rule (step self c) cs) as [Hc Hv].
    rewrite (IH _ Hc Hv). apply step_keeps_description.
  - revert self Hc Hv. induction cs as [|c cs IH]; intros self _ _; [reflexivity|].
    change (run self (c :: cs)) with (run (step self c) cs).
    destruct (run_same_rule (step self c) cs) as [Hc Hv].
    rewrite (IH _ Hc Hv). apply step_keeps_description.
Qed.

Lemma step_actual (self : matcher) (c : comparison) :
  actual (step self c) =
  match AnyIf.call_validator self (cmp_heap c) (cmp_value c) with
  | Ok true => cmp_value c
  | Ok false => _not_matched
  | Raise _ => actual self
  end.
Proof.
  unfold step, compare. destruct (cmp_op c); [|rewrite ne_unfold];
    unfold AnyIf.__eq__;
    destruct (AnyIf.call_validator self (cmp_heap c) (cmp_value c)) as [[|]|e];
    reflexivity.
Qed.

(** [actual] only remembers the last comparison that returned: whatever
    came before, after one more comparison it is the compared value when
    the validator accepted it and [_not_matched] when it did not; a
    comparison that raises leaves it as it was. *)
Theorem actual_reflects_last_comparison
  (self : matcher) (cs : list comparison) (c : comparison) :
  actual (run self (cs ++ [c])) =
  match AnyIf.call_validator self (cmp_heap c) (cmp_value c) with
  | Ok true => cmp_value c
  | Ok false => _not_matched
  | Raise _ => actual (run self cs)
  end.
Proof.
  rewrite run_app. change (run (run self cs) [c]) with (step (run self cs) c).
  rewrite step_actual.
  now rewrite <- (call_validator_same_rule self (run self cs) _ _ (run_same_rule self cs)).
Qed.

(** The link between [actual] and [actuals]: a matcher whose [actual] is
    [_not_matched] or the last element of [actuals], as every constructor
    leaves it, stays so over any sequence of comparisons.  So whenever
    [actual] holds a value, that value is the most recent entry of
    [actuals]. *)
Theorem actual_is_last_of_actuals (self : matcher) (cs : list comparison) :
  actual self = _not_matched \/ last (actuals self) = Some (actual self) ->
  actual (run self cs) = _not_matched \/
  last (actuals (run self cs)) = Some (actual (run self cs)).
Proof.
  revert self. induction cs as [|c cs IH]; intros self Hinv; [exact Hinv|].
  change (run self (c :: cs)) with (run (step self c) cs).
  apply IH. rewrite step_actual, step_actuals. unfold accepts.
  destruct (AnyIf.call_validator self (cmp_heap c) (cmp_value c)) as [[|]|e].
  - right. apply last_snoc.
  - now left.
  - now rewrite app_nil_r.
Qed.

(** What [__repr__] shows after a comparison: the [repr] of the value
    when [==] returned true on a value that is not a sentinel, and the
    description the matcher was constructed with when [==] returned
    false. *)
Theorem repr_after_eq (m m' : matcher) (h : heap) (v : value) (res : bool) :
  AnyIf.__eq__ m h v = Ok (res, m') ->
  AnyIf.__repr__ m' =
  if res
  then (if is_ v _not_compared then "<not compared: " +:+ description m +:+ ">"
        else if is_ v _not_matched then description m else py_repr v)
  else description m.
Proof.
  intros Heq. apply eq_inv in Heq as [_ ->].
  unfold AnyIf.__repr__, AnyIf.compared, AnyIf.matched.
  destruct res; cbn [actual description set_actual append_actuals]; [|reflexivity].
  destruct (is_ v _not_compared); [reflexivity|].
  destruct (is_ v _not_matched); reflexivity.
Qed.
End frame.

(** [actual_is_last_of_actuals] at [AnyInteger()] compared with 5, "x"
    and 7. *)
Lemma actual_is_last_of_actuals_witness :
  let m := @run Sample.runtime (AnyInteger.__init__ 139876543210000)
             [mkComparison OpEq ∅ (VInt 5); mkComparison OpNe ∅ (VStr "x");
              mkComparison OpEq ∅ (VInt 7)] in
  actuals m = [VInt 5; VInt 7] /\
  (actual m = _not_matched \/ last (actuals m) = Some (actual m)).
Proof.
  intros m. split; [reflexivity|].
  apply (@actual_is_last_of_actuals Sample.runtime). left. reflexivity.
Defined.

(** [repr_after_eq] at [AnyInteger()] compared with 5. *)
Lemma repr_after_eq_witness :
  let m := AnyInteger.__init__ 139876543210000 in
  let m' := append_actuals (VInt 5) (set_actual (VInt 5) m) in
  @AnyIf.__repr__ Sample.runtime m' = "5"%string.
Proof.
  intros m m'.
  exact (@repr_after_eq Sample.runtime m m' ∅ (VInt 5) true eq_refl).
Defined.

(** ** The matchers that guard the type of the value *)

Section guarded.
Context `{Runtime}.

Lemma prefix_app (p r : string) : String.prefix p (p +:+ r) = true.
Proof.
  induction p as [|c p IH]; simpl; [now destruct r|].
  destruct (ascii_dec c c); [exact IH|contradiction].
Qed.

Lemma prefix_split (p s : string) :
  String.prefix p s = true -> exists r, s = p +:+ r.
Proof.
  revert s. induction p as [|c p IH]; intros s Hp; [now exists s|].
  destruct s as [|d s]; [discriminate|].
  simpl in Hp. destruct (ascii_dec c d) as [->|]; [|discriminate].
  destruct (IH s Hp) as [r ->]. now exists r.
Qed.

(** A matcher without validator accepts whatever it is compared with:
    [==] returns true and [!=] false on every value, nothing is raised, and
    after any sequence of comparisons [actuals] lists every compared
    value in order. *)
Theorem AnyIf_without_validator_accepts_all (addr : N) (cs : list comparison) :
  (forall h v,
      AnyIf.__eq__ (new_AnyIf addr None) h v =
      Ok (true, append_actuals v (set_actual v (new_AnyIf addr None)))) /\
  (forall h v,
      AnyIf.__ne__ (new_AnyIf addr None) h v =
      Ok (false, append_actuals v (set_actual v (new_AnyIf addr None)))) /\
  actuals (run (new_AnyIf addr None) cs) = map cmp_value cs.
Proof.
  split; [reflexivity|]. split; [reflexivity|].
  rewrite run_actuals. cbn [new_AnyIf AnyIf.__init__ actuals app].
  unfold accepted. f_equal.
  induction cs as [|c cs IH]; [reflexivity|].
  cbn [List.filter]. now rewrite IH.
Qed.


(** [AnyWebURLString] accepts exactly the strings that are "http://" or
    "https://" followed by anything (also by nothing), and whatever it
    accepts [AnyString] accepts too. *)
Theorem AnyWebURLString_accepts (addr : N) (h : heap) (v : value) :
  (AnyIf.call_validator (AnyWebURLString.__init__ addr) h v = Ok true <->
   exists rest, v = VStr ("http://" +:+ rest) \/ v = VStr ("https://" +:+ rest)) /\
  (AnyIf.call_validator (AnyWebURLString.__init__ addr) h v = Ok true ->
   AnyIf.call_validator (AnyString.__init__ addr) h v = Ok true).
Proof.
  assert (Hiff : AnyIf.call_validator (AnyWebURLString.__init__ addr) h v = Ok true <->
                 exists rest, v = VStr ("http://" +:+ rest) \/ v = VStr ("https://" +:+ rest)).
  { unfold AnyIf.call_validator, AnyIf._validator, AnyWebURLString.lambda.
    cbn [AnyWebURLString.__init__ AnyIf.__init__ cls validator].
    unfold AnyWebURLString.lambda, startswith. split.
    - destruct v as [| | |s| | | |]; try discriminate.
      cbn [isinstance_str andb]. intros [= Hs'].
      apply orb_true_iff in Hs' as [Hp|Hp]; apply prefix_split in Hp as [r ->];
        exists r; [now left|now right].
    - intros [r [->| ->]]; cbn [isinstance_str andb].
      + now rewrite (prefix_app "http://" r).
      + rewrite (prefix_app "https://" r). now rewrite orb_true_r. }
  split; [exact Hiff|].
  intros Hacc. apply Hiff in Hacc as [r [->| ->]]; reflexivity.
Qed.

Lemma AnyOf_call_validator (addr : N) (items : list value) (h : heap) (v : value) :
  AnyIf.call_validator (AnyOf.__init__ addr items) h v = Ok (py_in v items).
Proof. reflexivity. Qed.

(** [AnyOf] accepts every one of its alternatives [items], accepts a value
    exactly when some alternative is [==] to it, and with no alternative
    at all rejects everything. *)
Theorem AnyOf_accepts_its_alternatives
  (addr : N) (items : list value) (h : heap) (x : value) :
  In x items ->
  AnyIf.__eq__ (AnyOf.__init__ addr items) h x =
    Ok (true, append_actuals x (set_actual x (AnyOf.__init__ addr items))) /\
  (forall v, AnyIf.call_validator (AnyOf.__init__ addr items) h v = Ok true <->
             exists alt, In alt items /\ py_eq alt v = true) /\
  (forall v, AnyIf.call_validator (AnyOf.__init__ addr []) h v = Ok false).
Proof.
  intros Hin.
  assert (Hiff : forall v, AnyIf.call_validator (AnyOf.__init__ addr items) h v = Ok true <->
                           exists alt, In alt items /\ py_eq alt v = true).
  { intros v. rewrite AnyOf_call_validator. unfold py_in. rewrite <- existsb_exists.
    split; [now intros [= ->]|now intros ->]. }
  split; [|split; [exact Hiff|reflexivity]].
  apply eq_accept. apply Hiff. exists x. split; [exact Hin|apply py_eq_refl].
Qed.
End guarded.

(** [AnyOf_accepts_its_alternatives] at [AnyOf(456, "789")] and "789". *)
Lemma AnyOf_accepts_its_alternatives_witness :
  In (VStr "789") [VInt 456; VStr "789"] /\
  @AnyIf.call_validator Sample.runtime
     (@AnyOf.__init__ Sample.runtime 139876543210448 [VInt 456; VStr "789"]) ∅ (VStr "789")
  = Ok true.
Proof.
  assert (Hin : In (VStr "789") [VInt 456; VStr "789"]) by (right; left; reflexivity).
  split; [exact Hin|].
  apply (proj1 (proj2 (@AnyOf_accepts_its_alternatives Sample.runtime
                          139876543210448%N [VInt 456; VStr "789"] ∅ (VStr "789") Hin))).
  exists (VStr "789"). split; [exact Hin|reflexivity].
Defined.

(** [AnyWebURLString_accepts] at "https://example.org". *)
Lemma AnyWebURLString_accepts_witness :
  @AnyIf.call_validator Sample.runtime (AnyString.__init__ 139876543210000) ∅
     (VStr "https://example.org") = Ok true.
Proof.
  apply (proj2 (@AnyWebURLString_accepts Sample.runtime 139876543210000%N ∅
                  (VStr "https://example.org"))).
  reflexivity.
Defined.

(** ** [AnyStringMatchingRegex] *)

Section regex.
Context `{Runtime}.

(** A pattern that does not compile makes the constructor raise, so no
    matcher exists for it; a pattern that compiles gives a matcher in the
    initial state whose attribute [other] is the pattern compiled with
    [re.DOTALL], and which on every string returns what [match] finds,
    without raising. *)
Theorem AnyStringMatchingRegex_construction (addr : N) (pat : string) :
  match AnyStringMatchingRegex.__init__ addr pat with
  | Raise e => e = ReError /\ re_valid pat = false
  | Ok m =>
      re_valid pat = true /\
      other m = Some (mkPattern pat DOTALL) /\
      actual m = _not_matched /\ actuals m = [] /\
      description m = object__repr__ "AnyStringMatchingRegex" addr /\
      forall h s,
        AnyIf.__eq__ m h (VStr s) =
        if re_match (mkPattern pat DOTALL) s
        then Ok (true, append_actuals (VStr s) (set_actual (VStr s) m))
        else Ok (false, set_actual _not_matched m)
  end.
Proof.
  unfold AnyStringMatchingRegex.__init__, re_compile.
  destruct (re_valid pat); cbn [rbind]; [|now split].
  repeat split. intros h s. unfold AnyIf.__eq__.
  change (AnyIf.call_validator _ h (VStr s)) with (Ok (A:=bool) (re_match (mkPattern pat DOTALL) s)).
  cbn [rbind]. destruct (re_match (mkPattern pat DOTALL) s); reflexivity.
Qed.
End regex.

(** ** [Unordered] on rearrangements *)

Section unordered_more.
Context `{Runtime}.

(** [Unordered] does not look at the kind of sequence it is compared
    with: a tuple is accepted exactly when the list of the same elements
    is. *)
Lemma Unordered_tuple_as_list (addr : N) (items : nat) (h : heap) (l : list value) :
  AnyIf.call_validator (Unordered.__init__ addr items) h (VTuple l) =
  AnyIf.call_validator (Unordered.__init__ addr items) h (VList l).
Proof. reflexivity. Qed.

(** When the collection given to [Unordered] holds integers, the matcher
    accepts a list or tuple of integers exactly when it is a rearrangement
    of what the collection holds at that moment (same elements, same
    multiplicities), and it does not raise. *)
Theorem Unordered_accepts_exactly_rearrangements
  (addr : N) (items : nat) (h : heap) (expected l : list Z) :
  h !! items = Some (VList (map VInt expected)) ->
  exists b,
    AnyIf.call_validator (Unordered.__init__ addr items) h (VList (map VInt l)) = Ok b /\
    AnyIf.call_validator (Unordered.__init__ addr items) h (VTuple (map VInt l)) = Ok b /\
    (b = true <-> l ≡ₚ expected).
Proof.
  intros Hit.
  destruct (Unordered_accepts_rearrangements addr items h expected l Hit) as (b & Hb & Hiff).
  exists b. split; [exact Hb|]. split; [|exact Hiff].
  now rewrite Unordered_tuple_as_list.
Qed.
End unordered_more.

(** [Unordered_accepts_exactly_rearrangements] at the list [[3, 1, 2]]
    stored at location 0, compared with [[2, 3, 1]]. *)
Lemma Unordered_accepts_exactly_rearrangements_witness :
  let h : heap := {[ 0%nat := VList (map VInt [3; 1; 2]) ]} in
  exists b,
    @AnyIf.call_validator Sample.runtime (Unordered.__init__ 139876543210000 0) h
       (VList (map VInt [2; 3; 1])) = Ok b /\
    @AnyIf.call_validator Sample.runtime (Unordered.__init__ 139876543210000 0) h
       (VTuple (map VInt [2; 3; 1])) = Ok b /\
    (b = true <-> [2; 3; 1] ≡ₚ [3; 1; 2]).
Proof.
  intros h.
  exact (@Unordered_accepts_exactly_rearrangements Sample.runtime 139876543210000%N 0%nat h
           [3; 1; 2] [2; 3; 1] eq_refl).
Defined.

(** ** [AnyUUID] on strings *)

Section uuid_strings.
Context `{Runtime}.

Lemma str_remove_from_length (old : string) (s : string) :
  forall skip, (String.length (str_remove_from old skip s) <= String.length s)%nat.
Proof.
  induction s as [|c r IH]; intros skip; [reflexivity|].
  cbn [str_remove_from]. destruct skip as [|k].
  - destruct (String.prefix old (String c r)).
    + specialize (IH (Nat.pred (String.length old))). cbn [String.length]. lia.
    + specialize (IH O). cbn [String.length]. lia.
  - specialize (IH k). cbn [String.length]. lia.
Qed.

Lemma str_lstrip_length (chars s : string) :
  (String.length (str_lstrip chars s) <= String.length s)%nat.
Proof.
  induction s as [|c r IH]; [reflexivity|].
  cbn [str_lstrip]. destruct (char_in c chars); cbn [String.length]; lia.
Qed.

Lemma string_of_list_ascii_length (l : list ascii) :
  String.length (string_of_list_ascii l) = length l.
Proof. induction l as [|c l IH]; simpl; [reflexivity|now rewrite IH]. Qed.

Lemma list_ascii_of_string_length (s : string) :
  length (list_ascii_of_string s) = String.length s.
Proof. induction s as [|c s IH]; simpl; [reflexivity|now rewrite IH]. Qed.

Lemma str_rev_length (s : string) : String.length (str_rev s) = String.length s.
Proof.
  unfold str_rev.
  now rewrite string_of_list_ascii_length, List.length_rev, list_ascii_of_string_length.
Qed.

Lemma str_strip_length (chars s : string) :
  (String.length (str_strip chars s) <= String.length s)%nat.
Proof.
  unfold str_strip. rewrite str_rev_length.
  etransitivity; [apply str_lstrip_length|].
  rewrite str_rev_length. apply str_lstrip_length.
Qed.

(** The string that [UUID] parses is never longer than its argument. *)
Lemma uuid_hex_length (s : string) :
  (String.length
     (str_remove "-" (str_strip "{}" (str_remove "uuid:" (str_remove "urn:" s))))
   <= String.length s)%nat.
Proof.
  unfold str_remove.
  etransitivity; [apply str_remove_from_length|].
  etransitivity; [apply str_strip_length|].
  etransitivity; [apply str_remove_from_length|].
  apply str_remove_from_length.
Qed.

Lemma AnyUUID_eq_str (addr : N) (h : heap) (s : string) :
  AnyIf.__eq__ (new_AnyUUID addr) h (VStr s) =
  match UUID (VStr s) with
  | Ok _ => Ok (true, append_actuals (VStr s) (set_actual (VStr s) (new_AnyUUID addr)))
  | Raise _ => Ok (false, set_actual _not_matched (new_AnyUUID addr))
  end.
Proof.
  unfold AnyIf.__eq__, AnyIf.call_validator, AnyUUID._validator.
  cbn [new_AnyUUID AnyIf.__init__ cls isinstance_str isinstance_UUID orb negb].
  destruct (UUID_str s) as [[n Hn]| Hn]; rewrite Hn; reflexivity.
Qed.

(** [AnyUUID] rejects every string of fewer than 32 characters, whatever
    it contains: the prefixes, braces and hyphens that [UUID] removes only
    shorten it. *)
Theorem AnyUUID_rejects_short_strings (addr : N) (h : heap) (s : string) :
  (String.length s < 32)%nat ->
  AnyIf.__eq__ (new_AnyUUID addr) h (VStr s) =
    Ok (false, set_actual _not_matched (new_AnyUUID addr)).
Proof.
  intros Hlen. rewrite AnyUUID_eq_str.
  assert (HU : UUID (VStr s) = Raise ValueError); [|now rewrite HU].
  unfold UUID. pose proof (uuid_hex_length s) as Hle.
  destruct (Nat.eqb_spec
              (String.length
                 (str_remove "-" (str_strip "{}" (str_remove "uuid:" (str_remove "urn:" s)))))
              32) as [Heq|Hne]; [lia|reflexivity].
Qed.

(** [AnyUUID] raises on UUID objects only: on every other value, in every
    heap, [==] returns, and it returns false on everything that is not a
    string. *)
Theorem AnyUUID_raises_on_UUID_objects_only (addr : N) (h : heap) (v : value) :
  raises (AnyIf.__eq__ (new_AnyUUID addr) h v) = isinstance_UUID v /\
  (isinstance_str v = false -> isinstance_UUID v = false ->
   AnyIf.__eq__ (new_AnyUUID addr) h v =
     Ok (false, set_actual _not_matched (new_AnyUUID addr))).
Proof.
  destruct v as [| | |s| | | |]; try (split; [reflexivity|intros; reflexivity]).
  - split; [|discriminate]. rewrite AnyUUID_eq_str.
    destruct (UUID (VStr s)); reflexivity.
  - split; [reflexivity|discriminate].
Qed.

Lemma char_in_eqb_false (c d : ascii) (r : string) :
  char_in c (String d r) = false -> Ascii.eqb c d = false /\ char_in c r = false.
Proof. cbn [char_in]. apply orb_false_iff. Qed.

(** Removing a substring whose first character does not occur changes
    nothing. *)
Lemma str_remove_absent (c : ascii) (old s : string) :
  char_in c s = false -> str_remove (String c old) s = s.
Proof.
  unfold str_remove. induction s as [|d r IH]; [reflexivity|].
  intros Hin. apply char_in_eqb_false in Hin as [Hcd Hr].
  cbn [str_remove_from].
  change (String.prefix (String c old) (String d r))
    with (if ascii_dec c d then String.prefix old r else false).
  destruct (ascii_dec c d) as [->|_]; [now rewrite Ascii.eqb_refl in Hcd|].
  now rewrite (IH Hr).
Qed.

Lemma str_lstrip_absent (s : string) :
  char_in "{" s = false -> char_in "}" s = false -> str_lstrip "{}" s = s.
Proof.
  destruct s as [|d r]; [reflexivity|].
  intros Ho Hc. apply char_in_eqb_false in Ho as [Ho _].
  apply char_in_eqb_false in Hc as [Hc _].
  cbn [str_lstrip char_in].
  rewrite (Ascii.eqb_sym d "{"), (Ascii.eqb_sym d "}"), Ho, Hc. reflexivity.
Qed.

Lemma char_in_list (c : ascii) (s : string) :
  char_in c s = existsb (Ascii.eqb c) (list_ascii_of_string s).
Proof. induction s as [|d r IH]; simpl; [reflexivity|now rewrite IH]. Qed.

Lemma char_in_str_rev (c : ascii) (s : string) : char_in c (str_rev s) = char_in c s.
Proof.
  rewrite !char_in_list. unfold str_rev. rewrite list_ascii_of_string_of_list_ascii.
  generalize (list_ascii_of_string s). intros l.
  induction l as [|d l IH]; [reflexivity|].
  cbn [rev existsb]. rewrite existsb_app, IH. cbn [existsb].
  rewrite orb_false_r. apply orb_comm.
Qed.

Lemma str_rev_involutive (s : string) : str_rev (str_rev s) = s.
Proof.
  unfold str_rev. rewrite list_ascii_of_string_of_list_ascii, rev_involutive.
  apply string_of_list_ascii_of_string.
Qed.

Lemma str_strip_absent (s : string) :
  char_in "{" s = false -> char_in "}" s = false -> str_strip "{}" s = s.
Proof.
  intros Ho Hc. unfold str_strip.
  rewrite (str_lstrip_absent s Ho Hc).
  rewrite str_lstrip_absent; [apply str_rev_involutive| |];
    now rewrite char_in_str_rev.
Qed.

(** On a string of 32 characters with no "u", no hyphen and no brace in
    it, as 32 hexadecimal digits are, [UUID] removes nothing, and
    [AnyUUID] accepts the string exactly when [int(s, 16)] succeeds with a
    value that fits 128 bits. *)
Theorem AnyUUID_accepts_plain_hex (addr : N) (h : heap) (s : string) :
  String.length s = 32%nat ->
  char_in "u" s = false -> char_in "-" s = false ->
  char_in "{" s = false -> char_in "}" s = false ->
  AnyIf.__eq__ (new_AnyUUID addr) h (VStr s) =
  match int16 s with
  | Some n =>
      if (0 <=? n) && (n <? 2 ^ 128)
      then Ok (true, append_actuals (VStr s) (set_actual (VStr s) (new_AnyUUID addr)))
      else Ok (false, set_actual _not_matched (new_AnyUUID addr))
  | None => Ok (false, set_actual _not_matched (new_AnyUUID addr))
  end.
Proof.
  intros Hlen Hu Hh Ho Hc. rewrite AnyUUID_eq_str. unfold UUID.
  rewrite (str_remove_absent "u" "rn:" s Hu), (str_remove_absent "u" "uid:" s Hu).
  rewrite (str_strip_absent s Ho Hc), (str_remove_absent "-" "" s Hh).
  rewrite Hlen. cbn [Nat.eqb negb].
  destruct (int16 s) as [n|]; [|reflexivity].
  destruct ((0 <=? n) && (n <? 2 ^ 128)); reflexivity.
Qed.
End uuid_strings.

(** [AnyUUID_rejects_short_strings] at "not-a-uuid". *)
Lemma AnyUUID_rejects_short_strings_witness :
  @AnyIf.__eq__ Sample.runtime (new_AnyUUID 139876543210000) ∅ (VStr "not-a-uuid") =
    Ok (false, set_actual _not_matched (new_AnyUUID 139876543210000)).
Proof.
  apply (@AnyUUID_rejects_short_strings Sample.runtime). simpl. lia.
Defined.

(** [AnyUUID_raises_on_UUID_objects_only] at [None]. *)
Lemma AnyUUID_raises_on_UUID_objects_only_witness :
  @AnyIf.__eq__ Sample.runtime (new_AnyUUID 139876543210000) ∅ VNone =
    Ok (false, set_actual _not_matched (new_AnyUUID 139876543210000)).
Proof.
  apply (proj2 (@AnyUUID_raises_on_UUID_objects_only Sample.runtime 139876543210000%N ∅ VNone));
    reflexivity.
Defined.

(** [AnyUUID_accepts_plain_hex] at 32 hexadecimal digits. *)
Lemma AnyUUID_accepts_plain_hex_witness :
  let s := "12345678123456781234567812345678"%string in
  @AnyIf.__eq__ Sample.runtime (new_AnyUUID 139876543210000) ∅ (VStr s) =
    Ok (true, append_actuals (VStr s) (set_actual (VStr s) (new_AnyUUID 139876543210000))).
Proof.
  intros s.
  exact (@AnyUUID_accepts_plain_hex Sample.runtime 139876543210000%N ∅ s
           eq_refl eq_refl eq_refl eq_refl eq_refl).
Defined.
